(** * Mergington High School API: the request handlers of [src/app.py]

    The module keeps two process-wide dictionaries, [activities] and
    [teachers], and five route functions over them.  The dictionaries are
    finite maps with string keys, a handler is a function from the store to
    an outcome and a new store, and [raise] leaves the store as it is at the
    point of the exception, as Python does. *)

From stdpp Require Import gmap strings list fin_maps.
From Stdlib Require Import ZArith.

Local Open Scope string_scope.
Local Open Scope list_scope.
Local Open Scope Z_scope.

(** ** Python values used by the handlers *)

(** Truth value of an optional [str] argument ([username: str = None]):
    [None] and the empty string are falsy, anything else is truthy. *)
Definition truthy (v : option string) : bool :=
  match v with
  | None => false
  | Some EmptyString => false
  | Some (String _ _) => true
  end.

(** [k in d] on a Python dict with string keys. *)
Definition dict_contains {V} (k : string) (d : gmap string V) : bool :=
  bool_decide (is_Some (d !! k)).

(** [x in l] on a Python list of strings. *)
Definition list_contains (x : string) (l : list string) : bool :=
  bool_decide (x ∈ l).

(** [l.remove(x)]: drops the first element equal to [x]; [None] stands for
    the [ValueError] Python raises when there is none. *)
Fixpoint list_remove (x : string) (l : list string) : option (list string) :=
  match l with
  | [] => None
  | y :: l' =>
      if String.eqb y x then Some l'
      else match list_remove x l' with
           | Some r => Some (y :: r)
           | None => None
           end
  end.

(** ** Data model *)

(** Modelled from the spec: the shape of one entry of [activities.json],
    which is not part of the sources; the handlers only touch
    ["participants"]. *)
Record Activity := mkActivity {
  description : string;
  schedule : string;
  max_participants : Z;
  participants : list string
}.

(** The two module-level dictionaries. *)
Record Store := mkStore {
  activities : gmap string Activity;
  teachers : gmap string string
}.

Inductive Exception :=
| HTTPException (status_code : Z) (detail : string)
| KeyError (key : string)
| ValueError.

(** What a route function returns. *)
Inductive Response :=
| RedirectResponse (url : string)
| ActivitiesBody (body : gmap string Activity)
| LoginBody (message username : string)
| MessageBody (message : string).

Inductive Outcome (A : Type) :=
| Raised (e : Exception)
| Returned (a : A).
Arguments Raised {A} e.
Arguments Returned {A} a.

(** ** Handlers as store transformers *)

Definition Handler (A : Type) : Type := Store → Outcome A * Store.

Definition ret {A} (a : A) : Handler A := λ s, (Returned a, s).

Definition raise {A} (e : Exception) : Handler A := λ s, (Raised e, s).

Definition bind {A B} (m : Handler A) (k : A → Handler B) : Handler B :=
  λ s, match m s with
       | (Raised e, s') => (Raised e, s')
       | (Returned a, s') => k a s'
       end.

Notation "'do' x <- m ; k" := (bind m (λ x, k))
  (at level 10, x name, m at level 100, k at level 200).
Notation "m ;; k" := (bind m (λ _, k))
  (at level 100, k at level 200, right associativity).

Definition read_activities : Handler (gmap string Activity) :=
  λ s, (Returned (activities s), s).

Definition read_teachers : Handler (gmap string string) :=
  λ s, (Returned (teachers s), s).

(** [activities[activity_name]] *)
Definition activities_getitem (activity_name : string) : Handler Activity :=
  λ s, match activities s !! activity_name with
       | Some a => (Returned a, s)
       | None => (Raised (KeyError activity_name), s)
       end.

Definition with_participants (ps : list string) (a : Activity) : Activity :=
  mkActivity (description a) (schedule a) (max_participants a) ps.

(** [activity["participants"].append(email)], where [activity] is the
    object held by the store under [activity_name]: the stored list grows
    at its end. *)
Definition participants_append (activity_name email : string) : Handler unit :=
  λ s, match activities s !! activity_name with
       | None => (Raised (KeyError activity_name), s)
       | Some a =>
           (Returned tt,
            mkStore (<[activity_name := with_participants (participants a ++ [email]) a]>
                       (activities s))
                    (teachers s))
       end.

(** [activity["participants"].remove(email)] on the stored object. *)
Definition participants_remove (activity_name email : string) : Handler unit :=
  λ s, match activities s !! activity_name with
       | None => (Raised (KeyError activity_name), s)
       | Some a =>
           match list_remove email (participants a) with
           | None => (Raised ValueError, s)
           | Some ps =>
               (Returned tt,
                mkStore (<[activity_name := with_participants ps a]> (activities s))
                        (teachers s))
           end
       end.

(** [username not in teachers or teachers[username] != password] *)
Definition invalid_credentials (t : gmap string string) (username password : string) : bool :=
  match t !! username with
  | None => true
  | Some stored => negb (String.eqb stored password)
  end.

(** ** The route functions *)

Definition root : Handler Response :=
  ret (RedirectResponse "/static/index.html").

Definition get_activities : Handler Response :=
  do acts <- read_activities;
  ret (ActivitiesBody acts).

Definition login (username password : string) : Handler Response :=
  do t <- read_teachers;
  if invalid_credentials t username password
  then raise (HTTPException 401 "Invalid credentials")
  else ret (LoginBody "Login successful" username).

Definition signup_for_activity (activity_name email : string) : Handler Response :=
  do acts <- read_activities;
  if negb (dict_contains activity_name acts)
  then raise (HTTPException 404 "Activity not found")
  else
    do activity <- activities_getitem activity_name;
    if list_contains email (participants activity)
    then raise (HTTPException 400 "Student is already signed up")
    else
      participants_append activity_name email ;;
      ret (MessageBody ("Signed up " +:+ email +:+ " for " +:+ activity_name)).

(** The guard [if username and password:] of [unregister_from_activity]. *)
Definition check_teacher (username password : option string) : Handler unit :=
  if truthy username && truthy password
  then
    match username, password with
    | Some u, Some p =>
        do t <- read_teachers;
        if invalid_credentials t u p
        then raise (HTTPException 401 "Invalid teacher credentials")
        else ret tt
    | _, _ => ret tt (* not reached: a truthy argument is a string *)
    end
  else ret tt (* no auth provided: allowed, for backward compatibility *).

Definition unregister_from_activity (activity_name email : string)
    (username password : option string) : Handler Response :=
  check_teacher username password ;;
  do acts <- read_activities;
  if negb (dict_contains activity_name acts)
  then raise (HTTPException 404 "Activity not found")
  else
    do activity <- activities_getitem activity_name;
    if negb (list_contains email (participants activity))
    then raise (HTTPException 400 "Student is not signed up for this activity")
    else
      participants_remove activity_name email ;;
      ret (MessageBody ("Unregistered " +:+ email +:+ " from " +:+ activity_name)).

(** The routes of the application. *)
Inductive Request :=
| GetRoot
| GetActivities
| PostLogin (username password : string)
| PostSignup (activity_name email : string)
| DeleteUnregister (activity_name email : string) (username password : option string).

Definition handle (r : Request) : Handler Response :=
  match r with
  | GetRoot => root
  | GetActivities => get_activities
  | PostLogin u p => login u p
  | PostSignup n e => signup_for_activity n e
  | DeleteUnregister n e u p => unregister_from_activity n e u p
  end.

(** ** The scenario of the specification, run on the model *)

Definition chess : Activity :=
  mkActivity "Learn strategies" "Fridays" 12 ["a@x.com"].

Definition store0 : Store :=
  mkStore {[ "Chess Club" := chess ]} {[ "teacher1" := "secret" ]}.

Definition participants_of (name : string) (s : Store) : option (list string) :=
  participants <$> activities s !! name.

Definition status_of {A} (o : Outcome A) : option Z :=
  match o with
  | Raised (HTTPException c _) => Some c
  | _ => None
  end.

(** An activity over its capacity of one, and one with three participants. *)
Definition debate : Activity :=
  mkActivity "Full house" "Mondays" 1 ["a@x.com"; "b@x.com"].

Definition store_debate : Store :=
  mkStore {[ "Debate" := debate ]} ∅.

Definition choir : Activity :=
  mkActivity "Rehearsal" "Tuesdays" 20 ["a@x.com"; "b@x.com"; "c@x.com"].

Definition store_choir : Store :=
  mkStore (<["Choir" := choir]> {[ "Chess Club" := chess ]}) {[ "teacher1" := "secret" ]}.

(** Two teachers, one password. *)
Definition store_two_teachers : Store :=
  mkStore {[ "Chess Club" := chess ]}
          (<[ "teacher2" := "secret" ]> {[ "teacher1" := "secret" ]}).

(** ** Vocabulary of the specification *)

(** The three failure classes of the specification, by status code. *)
Definition Unauthorized : Z := 401.
Definition NotFound : Z := 404.
Definition Conflict : Z := 400.

(** A call succeeded when it returned a body. *)
Definition succeeded {A} (o : Outcome A) : bool :=
  match o with
  | Returned _ => true
  | Raised _ => false
  end.

(** Follows the spec's words: [t] is a one-character deviation of [s] when
    one character of [s] was replaced, dropped or added. *)
Fixpoint one_char_deviation (s t : string) : bool :=
  match s, t with
  | EmptyString, EmptyString => false
  | EmptyString, String _ t' => String.eqb t' EmptyString
  | String _ s', EmptyString => String.eqb s' EmptyString
  | String a s', String b t' =>
      if Ascii.eqb a b then one_char_deviation s' t'
      else String.eqb s' t' || String.eqb s t' || String.eqb s' t
  end.

(** Follows the spec's words: no activity lists an email twice. *)
Definition no_duplicate_participants (s : Store) : Prop :=
  ∀ name a, activities s !! name = Some a → NoDup (participants a).

(** Follows the spec's words: the credential check of unregister is passed
    or skipped. *)
Definition auth_passed (t : gmap string string) (username password : option string) : Prop :=
  match username, password with
  | Some u, Some p => truthy username && truthy password = true → t !! u = Some p
  | _, _ => True
  end.

#[local] Instance auth_passed_dec t u p : Decision (auth_passed t u p).
Proof. unfold auth_passed. destruct u, p; apply _. Defined.

(** Two activity records that differ at most in their participants. *)
Definition same_attributes (a b : Activity) : Prop :=
  description a = description b
  ∧ schedule a = schedule b
  ∧ max_participants a = max_participants b.

(** The ways a call can end, seen from the store [s] it started in: an
    HTTP error or a plain read leave [s] as it is, a signup puts one new
    email at the end of one stored list, an unregister cuts the first
    occurrence of one email out of one stored list. *)
Inductive effect (s : Store) : Outcome Response → Store → Prop :=
| effect_error c d :
    c ∈ [Unauthorized; NotFound; Conflict] →
    effect s (Raised (HTTPException c d)) s
| effect_read b :
    effect s (Returned b) s
| effect_append b name a email :
    activities s !! name = Some a →
    email ∉ participants a →
    effect s (Returned b)
      (mkStore (<[name := with_participants (participants a ++ [email]) a]> (activities s))
               (teachers s))
| effect_remove b name a email l1 l2 :
    activities s !! name = Some a →
    participants a = l1 ++ email :: l2 →
    email ∉ l1 →
    effect s (Returned b)
      (mkStore (<[name := with_participants (l1 ++ l2) a]> (activities s))
               (teachers s)).

(** ** Startup: the two loaders *)

(** What [open] and [json.load] give a loader: the file is missing, it is
    not valid JSON, or it holds a value.  Other I/O errors are not caught by
    the loaders and are left out. *)
Inductive FileRead (A : Type) :=
| FileNotFoundError
| JSONDecodeError
| Parsed (data : A).
Arguments FileNotFoundError {A}.
Arguments JSONDecodeError {A}.
Arguments Parsed {A} data.

(** [load_activities()]: the loaded mapping, and the lines it prints.  The
    path of the file is [activities_file]. *)
Definition load_activities (activities_file : string)
    (f : FileRead (gmap string Activity)) : gmap string Activity * list string :=
  match f with
  | Parsed data => (data, [])
  | FileNotFoundError =>
      (∅, ["Warning: " +:+ activities_file +:+ " not found. Using empty activities."])
  | JSONDecodeError =>
      (∅, ["Warning: " +:+ activities_file +:+ " is not valid JSON. Using empty activities."])
  end.

(** Modelled from the spec: the shape of [teachers.json], which is not part
    of the sources: an object whose values are arrays of objects with
    string fields.  One entry of the array is a [gmap string string]. *)
Abbreviation TeacherEntry := (gmap string string).

(** [{teacher["username"]: teacher["password"] for teacher in entries}]:
    the key is evaluated before the value, a later entry replaces an earlier
    one with the same key, and an entry without one of the two fields
    raises [KeyError]. *)
Fixpoint teachers_comprehension (entries : list TeacherEntry)
    (acc : gmap string string) : Outcome (gmap string string) :=
  match entries with
  | [] => Returned acc
  | teacher :: rest =>
      match teacher !! "username" with
      | None => Raised (KeyError "username")
      | Some u =>
          match teacher !! "password" with
          | None => Raised (KeyError "password")
          | Some p => teachers_comprehension rest (<[u := p]> acc)
          end
      end
  end.

(** [load_teachers()]: [data.get("teachers", [])] feeds the comprehension;
    only the two file errors are caught. *)
Definition load_teachers (teachers_file : string)
    (f : FileRead (gmap string (list TeacherEntry)))
    : Outcome (gmap string string) * list string :=
  match f with
  | Parsed data => (teachers_comprehension (default [] (data !! "teachers")) ∅, [])
  | FileNotFoundError =>
      (Returned ∅,
       ["Warning: " +:+ teachers_file +:+ " not found. No teachers will be able to log in."])
  | JSONDecodeError =>
      (Returned ∅, ["Warning: " +:+ teachers_file +:+ " is not valid JSON."])
  end.

(** An entry with both fields. *)
Definition has_credentials (e : TeacherEntry) : Prop :=
  is_Some (e !! "username") ∧ is_Some (e !! "password").

(** ** Calls one after the other *)

(** The application answering a list of requests in turn, each on the store
    the one before left. *)
Fixpoint serve (rs : list Request) (s : Store) : list (Outcome Response) * Store :=
  match rs with
  | [] => ([], s)
  | r :: rest =>
      let '(o, s1) := handle r s in
      let '(os, s2) := serve rest s1 in
      (o :: os, s2)
  end.

(** The activity a signup or an unregister call names. *)
Definition target (r : Request) : option string :=
  match r with
  | PostSignup n _ => Some n
  | DeleteUnregister n _ _ _ => Some n
  | _ => None
  end.

(** The store cut down to one activity name. *)
Definition only_activity (name : string) (s : Store) : Store :=
  mkStore (from_option (λ a, {[ name := a ]}) ∅ (activities s !! name)) (teachers s).

(** How often [x] is listed in [l]. *)
Definition occurrences (x : string) (l : list string) : nat :=
  length (filter (λ y, y = x) l).

(** A store where one email is listed twice, and a teachers file with a
    repeated username. *)
Definition store_twice : Store :=
  mkStore {[ "Chess Club" := mkActivity "Learn strategies" "Fridays" 12
                               ["a@x.com"; "b@x.com"; "a@x.com"] ]} ∅.

Definition teacher_entry (u p : string) : TeacherEntry :=
  <["password" := p]> {[ "username" := u ]}.

Definition teachers_file_repeated : gmap string (list TeacherEntry) :=
  {[ "teachers" := [teacher_entry "teacher1" "old";
                    teacher_entry "teacher2" "pw2";
                    teacher_entry "teacher1" "new"] ]}.

Definition teachers_file_broken : gmap string (list TeacherEntry) :=
  {[ "teachers" := [teacher_entry "teacher1" "secret";
                    {[ "username" := "teacher2" ]}] ]}.

(** ** Python list operations *)

Lemma list_contains_true x l : list_contains x l = true ↔ x ∈ l.
Proof. unfold list_contains. apply bool_decide_eq_true. Qed.

Lemma list_contains_false x l : list_contains x l = false ↔ x ∉ l.
Proof. unfold list_contains. apply bool_decide_eq_false. Qed.

Lemma dict_contains_Some {V} k (d : gmap string V) v :
  d !! k = Some v → dict_contains k d = true.
Proof. intros H. unfold dict_contains. apply bool_decide_eq_true. eauto. Qed.

Lemma dict_contains_None {V} k (d : gmap string V) :
  d !! k = None → dict_contains k d = false.
Proof.
  intros H. unfold dict_contains. apply bool_decide_eq_false.
  rewrite H. by intros [? ?].
Qed.

(** [remove] fails exactly on a list without the element. *)
Lemma list_remove_None x l : list_remove x l = None ↔ x ∉ l.
Proof.
  induction l as [|y l IH]; simpl.
  - split; [intros _; apply not_elem_of_nil | done].
  - destruct (String.eqb y x) eqn:E.
    + apply String.eqb_eq in E as ->. split; [done | intros []; left].
    + apply String.eqb_neq in E.
      destruct (list_remove x l) as [r|].
      * split; [done |]. intros Hn. exfalso.
        assert (x ∉ l) as Hl by (intros ?; apply Hn; by right).
        apply IH in Hl. done.
      * split; [| done]. intros _.
        rewrite not_elem_of_cons. split; [congruence | by apply IH].
Qed.

(** [remove] cuts out the first occurrence and nothing else. *)
Lemma list_remove_Some x l r :
  list_remove x l = Some r →
  ∃ l1 l2, l = l1 ++ x :: l2 ∧ (x ∉ l1) ∧ r = l1 ++ l2.
Proof.
  revert r. induction l as [|y l IH]; intros r; simpl; [done |].
  destruct (String.eqb y x) eqn:E.
  - apply String.eqb_eq in E as ->. intros [= <-].
    exists [], l. split_and!; [done | apply not_elem_of_nil | done].
  - apply String.eqb_neq in E.
    destruct (list_remove x l) as [r'|] eqn:Hr; [| done].
    intros [= <-]. destruct (IH r' eq_refl) as (l1 & l2 & -> & Hn & ->).
    exists (y :: l1), l2. split_and!; [done | | done].
    rewrite not_elem_of_cons. split; [congruence | done].
Qed.

Lemma list_remove_elem x l : x ∈ l → is_Some (list_remove x l).
Proof.
  intros Hin. destruct (list_remove x l) eqn:E; [eauto |].
  apply list_remove_None in E. done.
Qed.

Lemma append_NoDup (x : string) l : x ∉ l → NoDup l → NoDup (l ++ [x]).
Proof.
  intros Hx Hnd. apply NoDup_app. split_and!; [done | | apply NoDup_singleton].
  intros y Hy Hy2. apply list_elem_of_singleton in Hy2 as ->. done.
Qed.

Lemma one_char_deviation_neq s t : one_char_deviation s t = true → s ≠ t.
Proof.
  revert t. induction s as [|a s IH]; intros [|b t]; simpl; try done.
  destruct (Ascii.eqb a b) eqn:E.
  - intros H%IH. congruence.
  - apply Ascii.eqb_neq in E. intros _. congruence.
Qed.

(** ** Credentials *)

Lemma invalid_credentials_false t u p :
  invalid_credentials t u p = false ↔ t !! u = Some p.
Proof.
  unfold invalid_credentials. destruct (t !! u) as [q|]; [| done].
  rewrite negb_false_iff, String.eqb_eq. split; congruence.
Qed.

Lemma invalid_credentials_true t u p :
  invalid_credentials t u p = true ↔ t !! u ≠ Some p.
Proof.
  rewrite <- invalid_credentials_false. destruct (invalid_credentials t u p); split; congruence.
Qed.

Lemma truthy_Some u : truthy (Some u) = true ↔ u ≠ EmptyString.
Proof. destruct u; simpl; split; congruence. Qed.

(** ** What each route function computes *)

Ltac run_handler :=
  unfold bind, read_activities, read_teachers, activities_getitem,
    participants_append, participants_remove, raise, ret; simpl.

Section Login.
Context (username password : string) (s : Store).

Lemma login_valid :
  teachers s !! username = Some password →
  login username password s = (Returned (LoginBody "Login successful" username), s).
Proof.
  intros H%invalid_credentials_false. unfold login. run_handler. by rewrite H.
Qed.

Lemma login_invalid :
  teachers s !! username ≠ Some password →
  login username password s = (Raised (HTTPException 401 "Invalid credentials"), s).
Proof.
  intros H%invalid_credentials_true. unfold login. run_handler. by rewrite H.
Qed.
End Login.

Section Signup.
Context (activity_name email : string) (s : Store).

Lemma signup_unknown :
  activities s !! activity_name = None →
  signup_for_activity activity_name email s
  = (Raised (HTTPException 404 "Activity not found"), s).
Proof.
  intros H. unfold signup_for_activity. run_handler.
  by rewrite (dict_contains_None _ _ H).
Qed.

Lemma signup_member a :
  activities s !! activity_name = Some a →
  email ∈ participants a →
  signup_for_activity activity_name email s
  = (Raised (HTTPException 400 "Student is already signed up"), s).
Proof.
  intros H Hin%list_contains_true. unfold signup_for_activity. run_handler.
  rewrite (dict_contains_Some _ _ _ H). simpl. rewrite H. by rewrite Hin.
Qed.

Lemma signup_fresh a :
  activities s !! activity_name = Some a →
  email ∉ participants a →
  signup_for_activity activity_name email s
  = (Returned (MessageBody ("Signed up " +:+ email +:+ " for " +:+ activity_name)),
     mkStore (<[activity_name := with_participants (participants a ++ [email]) a]>
                (activities s))
             (teachers s)).
Proof.
  intros H Hin%list_contains_false. unfold signup_for_activity. run_handler.
  rewrite (dict_contains_Some _ _ _ H). simpl. rewrite H. rewrite Hin.
  by rewrite H.
Qed.
End Signup.

Section Unregister.
Context (activity_name email : string) (s : Store).

Lemma check_teacher_skipped username password :
  truthy username && truthy password = false →
  check_teacher username password s = (Returned tt, s).
Proof. intros H. unfold check_teacher. by rewrite H. Qed.

Lemma check_teacher_valid u p :
  teachers s !! u = Some p →
  check_teacher (Some u) (Some p) s = (Returned tt, s).
Proof.
  intros H%invalid_credentials_false. unfold check_teacher.
  destruct (truthy (Some u) && truthy (Some p)); [| done].
  run_handler. by rewrite H.
Qed.

Lemma check_teacher_invalid u p :
  u ≠ EmptyString → p ≠ EmptyString →
  teachers s !! u ≠ Some p →
  check_teacher (Some u) (Some p) s
  = (Raised (HTTPException 401 "Invalid teacher credentials"), s).
Proof.
  intros Hu%truthy_Some Hp%truthy_Some H%invalid_credentials_true.
  unfold check_teacher. rewrite Hu, Hp. run_handler. by rewrite H.
Qed.

Lemma unregister_skipped username password :
  truthy username && truthy password = false →
  unregister_from_activity activity_name email username password s
  = unregister_from_activity activity_name email None None s.
Proof.
  intros H. unfold unregister_from_activity, bind at 1.
  rewrite (check_teacher_skipped _ _ H). done.
Qed.

Lemma unregister_valid u p :
  teachers s !! u = Some p →
  unregister_from_activity activity_name email (Some u) (Some p) s
  = unregister_from_activity activity_name email None None s.
Proof.
  intros H. unfold unregister_from_activity, bind at 1.
  rewrite (check_teacher_valid _ _ H). done.
Qed.

Lemma unregister_invalid u p :
  u ≠ EmptyString → p ≠ EmptyString →
  teachers s !! u ≠ Some p →
  unregister_from_activity activity_name email (Some u) (Some p) s
  = (Raised (HTTPException 401 "Invalid teacher credentials"), s).
Proof.
  intros Hu Hp H. unfold unregister_from_activity, bind at 1.
  by rewrite (check_teacher_invalid _ _ Hu Hp H).
Qed.

Lemma unregister_unknown :
  activities s !! activity_name = None →
  unregister_from_activity activity_name email None None s
  = (Raised (HTTPException 404 "Activity not found"), s).
Proof.
  intros H. unfold unregister_from_activity, check_teacher. run_handler.
  by rewrite (dict_contains_None _ _ H).
Qed.

Lemma unregister_absent a :
  activities s !! activity_name = Some a →
  email ∉ participants a →
  unregister_from_activity activity_name email None None s
  = (Raised (HTTPException 400 "Student is not signed up for this activity"), s).
Proof.
  intros H Hin%list_contains_false. unfold unregister_from_activity, check_teacher.
  run_handler. rewrite (dict_contains_Some _ _ _ H). simpl. rewrite H.
  by rewrite Hin.
Qed.

Lemma unregister_member a :
  activities s !! activity_name = Some a →
  email ∈ participants a →
  ∃ l1 l2,
    participants a = l1 ++ email :: l2 ∧ (email ∉ l1) ∧
    unregister_from_activity activity_name email None None s
    = (Returned (MessageBody ("Unregistered " +:+ email +:+ " from " +:+ activity_name)),
       mkStore (<[activity_name := with_participants (l1 ++ l2) a]> (activities s))
               (teachers s)).
Proof.
  intros H Hin. destruct (list_remove_elem _ _ Hin) as [r Hr].
  destruct (list_remove_Some _ _ _ Hr) as (l1 & l2 & Hl & Hn & ->).
  exists l1, l2. split_and!; [done | done |].
  apply list_contains_true in Hin.
  unfold unregister_from_activity, check_teacher. run_handler.
  rewrite (dict_contains_Some _ _ _ H). simpl. rewrite H. rewrite Hin. simpl.
  rewrite H. by rewrite Hr.
Qed.
End Unregister.

(** A call whose credential check is passed or skipped behaves as the call
    without credentials. *)
Lemma auth_passed_unregister activity_name email username password s :
  auth_passed (teachers s) username password →
  unregister_from_activity activity_name email username password s
  = unregister_from_activity activity_name email None None s.
Proof.
  unfold auth_passed.
  destruct username as [u|], password as [p|]; intros H.
  - destruct (truthy (Some u) && truthy (Some p)) eqn:E.
    + by apply unregister_valid, H.
    + by apply unregister_skipped.
  - apply unregister_skipped. apply andb_false_r.
  - by apply unregister_skipped.
  - done.
Qed.

(** The credential check is failed only by a non-empty pair that is not in
    the store. *)
Lemma auth_failed_unregister activity_name email username password s :
  ¬ auth_passed (teachers s) username password →
  unregister_from_activity activity_name email username password s
  = (Raised (HTTPException 401 "Invalid teacher credentials"), s).
Proof.
  unfold auth_passed.
  destruct username as [u|], password as [p|]; intros H; try (by destruct H).
  destruct (truthy (Some u) && truthy (Some p)) eqn:E.
  - apply andb_true_iff in E as [Hu%truthy_Some Hp%truthy_Some].
    apply unregister_invalid; [done | done |]. intros Heq. by apply H.
  - destruct H. intros [=].
Qed.

(** The call without credentials does not look at the teachers. *)
Lemma unregister_anonymous_teachers activity_name email acts t t' :
  fst (unregister_from_activity activity_name email None None (mkStore acts t))
  = fst (unregister_from_activity activity_name email None None (mkStore acts t'))
  ∧ activities (snd (unregister_from_activity activity_name email None None (mkStore acts t)))
    = activities (snd (unregister_from_activity activity_name email None None (mkStore acts t'))).
Proof.
  destruct (acts !! activity_name) as [a|] eqn:Ha.
  - destruct (decide (email ∈ participants a)) as [Hin|Hin].
    + destruct (unregister_member activity_name email (mkStore acts t) a Ha Hin)
        as (l1 & l2 & Hl & Hn & ->).
      destruct (unregister_member activity_name email (mkStore acts t') a Ha Hin)
        as (k1 & k2 & Hk & Hm & ->).
      simpl. assert (l1 = k1 ∧ l2 = k2) as [-> ->]; [| done].
      rewrite Hl in Hk. clear -Hk Hn Hm.
      revert k1 Hk Hm. induction l1 as [|x l1 IH]; intros [|y k1]; simpl; intros Hk Hm.
      * by injection Hk as ->.
      * injection Hk as <- _. destruct Hm. by left.
      * injection Hk as -> _. destruct Hn. by left.
      * injection Hk as -> Hk. apply not_elem_of_cons in Hn as [_ Hn].
        apply not_elem_of_cons in Hm as [_ Hm].
        destruct (IH Hn k1 Hk Hm) as [-> ->]. done.
    + by rewrite (unregister_absent _ _ (mkStore acts t) a Ha Hin),
        (unregister_absent _ _ (mkStore acts t') a Ha Hin).
  - by rewrite (unregister_unknown _ _ (mkStore acts t) Ha),
      (unregister_unknown _ _ (mkStore acts t') Ha).
Qed.

(** Every call ends in one of the four ways of [effect]. *)
Lemma handle_effect r s : effect s (fst (handle r s)) (snd (handle r s)).
Proof.
  destruct r as [| |u p|n e|n e u p]; simpl.
  - apply effect_read.
  - apply effect_read.
  - destruct (decide (teachers s !! u = Some p)) as [H|H].
    + rewrite (login_valid _ _ _ H). apply effect_read.
    + rewrite (login_invalid _ _ _ H). apply effect_error. set_solver.
  - destruct (activities s !! n) as [a|] eqn:Ha.
    + destruct (decide (e ∈ participants a)) as [Hin|Hin].
      * rewrite (signup_member _ _ _ a Ha Hin). apply effect_error. set_solver.
      * rewrite (signup_fresh _ _ _ a Ha Hin). by apply effect_append.
    + rewrite (signup_unknown _ _ _ Ha). apply effect_error. set_solver.
  - destruct (decide (auth_passed (teachers s) u p)) as [Hauth|Hauth].
    + rewrite (auth_passed_unregister _ _ _ _ _ Hauth).
      destruct (activities s !! n) as [a|] eqn:Ha.
      * destruct (decide (e ∈ participants a)) as [Hin|Hin].
        -- destruct (unregister_member n e s a Ha Hin) as (l1 & l2 & Hl & Hn & ->).
           by eapply effect_remove.
        -- rewrite (unregister_absent _ _ _ a Ha Hin). apply effect_error. set_solver.
      * rewrite (unregister_unknown _ _ _ Ha). apply effect_error. set_solver.
    + rewrite (auth_failed_unregister _ _ _ _ _ Hauth). apply effect_error. set_solver.
Qed.

(** ** Unregister: the authentication policy *)

(** C1, as stated, fails: a pair that is supplied with an empty username
    matches no stored credential, and the call is not answered with 401;
    here it removes the student. *)
Lemma unregister_supplied_empty_pair_not_unauthorized :
  ¬ (∀ activity_name email u p s,
       teachers s !! u ≠ Some p →
       status_of (fst (unregister_from_activity activity_name email (Some u) (Some p) s))
       = Some Unauthorized).
Proof.
  intros H.
  specialize (H "Chess Club" "a@x.com" "" "wrong" store0).
  vm_compute in H. by specialize (H ltac:(discriminate)).
Qed.

(** C1 (amended): when username and password are both supplied and both
    non-empty, a pair that is not a stored teacher credential is answered
    with 401 whatever the activity and the email are, and the store is left
    as it was; a stored pair lets the call go on as the call without
    credentials; the call without credentials is never answered with 401 and
    its outcome and its activities do not depend on the teachers. *)
Theorem unregister_authentication_policy activity_name email s :
  (∀ u p, u ≠ "" → p ≠ "" → teachers s !! u ≠ Some p →
     unregister_from_activity activity_name email (Some u) (Some p) s
     = (Raised (HTTPException Unauthorized "Invalid teacher credentials"), s))
  ∧ (∀ u p, teachers s !! u = Some p →
       unregister_from_activity activity_name email (Some u) (Some p) s
       = unregister_from_activity activity_name email None None s)
  ∧ status_of (fst (unregister_from_activity activity_name email None None s))
    ≠ Some Unauthorized
  ∧ (∀ t',
       fst (unregister_from_activity activity_name email None None
              (mkStore (activities s) t'))
       = fst (unregister_from_activity activity_name email None None s)
       ∧ activities (snd (unregister_from_activity activity_name email None None
                            (mkStore (activities s) t')))
         = activities (snd (unregister_from_activity activity_name email None None s))).
Proof.
  split_and!.
  - intros u p Hu Hp H. by apply unregister_invalid.
  - intros u p H. by apply unregister_valid.
  - destruct (activities s !! activity_name) as [a|] eqn:Ha.
    + destruct (decide (email ∈ participants a)) as [Hin|Hin].
      * by destruct (unregister_member activity_name email s a Ha Hin)
          as (l1 & l2 & _ & _ & ->).
      * by rewrite (unregister_absent _ _ _ a Ha Hin).
    + by rewrite (unregister_unknown _ _ _ Ha).
  - intros t'. destruct s as [acts t]. apply unregister_anonymous_teachers.
Qed.

Lemma unregister_authentication_policy_witness :
  unregister_from_activity "No Club" "z@x.com" (Some "teacher1") (Some "Secret") store0
  = (Raised (HTTPException 401 "Invalid teacher credentials"), store0)
  ∧ unregister_from_activity "Chess Club" "a@x.com" (Some "teacher1") (Some "secret") store0
    = unregister_from_activity "Chess Club" "a@x.com" None None store0.
Proof.
  split.
  - apply (unregister_authentication_policy "No Club" "z@x.com" store0);
      [discriminate | discriminate | vm_compute; discriminate].
  - apply (unregister_authentication_policy "Chess Club" "a@x.com" store0).
    reflexivity.
Defined.

(** C10: when exactly one of username and password is supplied, or a
    supplied one is the empty string, the credential check does nothing and
    the call is the call without credentials, whatever the teachers are. *)
Theorem unregister_partial_credentials activity_name email username password s :
  (is_Some username ∧ password = None)
  ∨ (username = None ∧ is_Some password)
  ∨ username = Some ""
  ∨ password = Some "" →
  check_teacher username password s = (Returned tt, s)
  ∧ unregister_from_activity activity_name email username password s
    = unregister_from_activity activity_name email None None s.
Proof.
  intros H.
  assert (truthy username && truthy password = false) as Hf.
  { destruct H as [ [_ ->] | [ [-> _] | [ -> | -> ] ] ]; simpl;
      [apply andb_false_r | done | done | apply andb_false_r]. }
  split; [by apply check_teacher_skipped | by apply unregister_skipped].
Qed.

Lemma unregister_partial_credentials_witness :
  (
     unregister_from_activity "Chess Club" "a@x.com" (Some "intruder") None store0
     = unregister_from_activity "Chess Club" "a@x.com" None None store0)
  ∧ unregister_from_activity "Chess Club" "a@x.com" (Some "teacher1") (Some "") store0
    = unregister_from_activity "Chess Club" "a@x.com" None None store0.
Proof.
  split.
  - apply (unregister_partial_credentials "Chess Club" "a@x.com" (Some "intruder") None store0).
    left. split; [by eexists | reflexivity].
  - apply (unregister_partial_credentials "Chess Club" "a@x.com" (Some "teacher1") (Some "") store0).
    right. right. right. reflexivity.
Defined.

(** ** Signup *)

(** C2: for an activity of the store and an email that is not among its
    participants, signup returns its confirmation and the stored list is the
    old one with the email at its end; the capacity attribute, whatever it
    is, plays no part. *)
Theorem signup_appends_without_capacity_check activity_name email s a :
  activities s !! activity_name = Some a →
  email ∉ participants a →
  signup_for_activity activity_name email s
  = (Returned (MessageBody ("Signed up " +:+ email +:+ " for " +:+ activity_name)),
     mkStore (<[activity_name :=
                  mkActivity (description a) (schedule a) (max_participants a)
                             (participants a ++ [email])]> (activities s))
             (teachers s)).
Proof. intros Ha Hin. by rewrite (signup_fresh _ _ _ a Ha Hin). Qed.

(** An activity that is already over its capacity of one takes one more. *)
Lemma signup_appends_without_capacity_check_witness :
  signup_for_activity "Debate" "c@x.com" store_debate
  = (Returned (MessageBody "Signed up c@x.com for Debate"),
     mkStore (<["Debate" := mkActivity "Full house" "Mondays" 1
                              ["a@x.com"; "b@x.com"; "c@x.com"]]> (activities store_debate))
             ∅).
Proof.
  apply (signup_appends_without_capacity_check "Debate" "c@x.com" store_debate debate).
  - reflexivity.
  - apply list_contains_false. reflexivity.
Defined.

(** C4: signup first looks for the activity name and answers 404 when it is
    not a key of the store, whatever the email is; otherwise it answers 400
    when the email is already among the participants.  In particular, on an
    activity of the store, the second of two identical signups in a row is
    answered with 400, whether the first one added the email or found it
    there. *)
Theorem signup_precondition_order activity_name email s :
  (activities s !! activity_name = None →
     signup_for_activity activity_name email s
     = (Raised (HTTPException NotFound "Activity not found"), s))
  ∧ (∀ a, activities s !! activity_name = Some a →
       email ∈ participants a →
       signup_for_activity activity_name email s
       = (Raised (HTTPException Conflict "Student is already signed up"), s))
  ∧ (is_Some (activities s !! activity_name) →
       fst (signup_for_activity activity_name email
              (snd (signup_for_activity activity_name email s)))
       = Raised (HTTPException Conflict "Student is already signed up")).
Proof.
  split_and!.
  - apply signup_unknown.
  - apply signup_member.
  - intros [a Ha]. destruct (decide (email ∈ participants a)) as [Hin|Hin].
    + rewrite (signup_member _ _ _ a Ha Hin). simpl.
      by rewrite (signup_member _ _ _ a Ha Hin).
    + rewrite (signup_fresh _ _ _ a Ha Hin). simpl.
      erewrite signup_member; [done | apply lookup_insert_eq |].
      simpl. apply elem_of_app. right. by left.
Qed.

Lemma signup_precondition_order_witness :
  signup_for_activity "Unknown Club" "a@x.com" store0
  = (Raised (HTTPException 404 "Activity not found"), store0)
  ∧ signup_for_activity "Chess Club" "a@x.com" store0
    = (Raised (HTTPException 400 "Student is already signed up"), store0)
  ∧ fst (signup_for_activity "Chess Club" "b@x.com"
           (snd (signup_for_activity "Chess Club" "b@x.com" store0)))
    = Raised (HTTPException 400 "Student is already signed up").
Proof.
  split_and!.
  - apply (signup_precondition_order "Unknown Club" "a@x.com" store0). reflexivity.
  - apply (signup_precondition_order "Chess Club" "a@x.com" store0) with chess.
    + reflexivity.
    + apply list_contains_true. reflexivity.
  - apply (signup_precondition_order "Chess Club" "b@x.com" store0).
    exists chess. reflexivity.
Defined.

(** ** Login *)

(** C3, as stated, fails: with two teachers that share a password, the
    username of the one is a one-character deviation of the username of the
    other, and login accepts it. *)
Lemma login_deviating_username_accepted :
  ¬ (∀ s u p u',
       teachers s !! u = Some p →
       one_char_deviation u u' = true →
       status_of (fst (login u' p s)) = Some Unauthorized).
Proof.
  intros H.
  specialize (H store_two_teachers "teacher1" "secret" "teacher2" eq_refl eq_refl).
  vm_compute in H. discriminate.
Qed.

(** C3 (amended): login returns its confirmation and the username when the
    store holds the username with exactly the supplied password, and answers
    401 in every other case, so it succeeds if and only if the pair is
    stored.  A one-character deviation of a stored password is rejected; a
    one-character deviation of a stored username is rejected unless the
    deviating pair is itself a stored credential. *)
Theorem login_exact_match username password s :
  (teachers s !! username = Some password →
     login username password s
     = (Returned (LoginBody "Login successful" username), s))
  ∧ (teachers s !! username ≠ Some password →
       login username password s
       = (Raised (HTTPException Unauthorized "Invalid credentials"), s))
  ∧ (succeeded (fst (login username password s)) = true
     ↔ teachers s !! username = Some password)
  ∧ (∀ p', teachers s !! username = Some password →
       one_char_deviation password p' = true →
       login username p' s
       = (Raised (HTTPException Unauthorized "Invalid credentials"), s))
  ∧ (∀ u', teachers s !! username = Some password →
       one_char_deviation username u' = true →
       teachers s !! u' ≠ Some password →
       login u' password s
       = (Raised (HTTPException Unauthorized "Invalid credentials"), s)).
Proof.
  split_and!.
  - apply login_valid.
  - apply login_invalid.
  - destruct (decide (teachers s !! username = Some password)) as [H|H].
    + by rewrite (login_valid _ _ _ H).
    + by rewrite (login_invalid _ _ _ H).
  - intros p' H Hdev%one_char_deviation_neq. apply login_invalid. congruence.
  - intros u' _ _ H. by apply login_invalid.
Qed.

Lemma login_exact_match_witness :
  login "teacher1" "secret" store0
  = (Returned (LoginBody "Login successful" "teacher1"), store0)
  ∧ login "teacher1" "Secret" store0
    = (Raised (HTTPException 401 "Invalid credentials"), store0)
  ∧ login "teacher1" "secre" store0
    = (Raised (HTTPException 401 "Invalid credentials"), store0)
  ∧ login "teacher2" "secret" store0
    = (Raised (HTTPException 401 "Invalid credentials"), store0).
Proof.
  destruct (login_exact_match "teacher1" "secret" store0) as (Hok & _ & _ & Hpw & Hname).
  destruct (login_exact_match "teacher1" "Secret" store0) as (_ & Hbad & _).
  split_and!.
  - apply Hok. reflexivity.
  - apply Hbad. vm_compute. discriminate.
  - apply Hpw; reflexivity.
  - apply Hname; [reflexivity | reflexivity | vm_compute; discriminate].
Defined.

(** ** Unregister: preconditions and effect *)

(** The credential check returns exactly when it is passed or skipped. *)
Lemma check_teacher_returns username password s :
  check_teacher username password s = (Returned tt, s)
  ↔ auth_passed (teachers s) username password.
Proof.
  unfold auth_passed, check_teacher.
  destruct username as [u|], password as [p|];
    try (rewrite ?andb_false_r; simpl; done).
  destruct (truthy (Some u) && truthy (Some p)); [| done].
  run_handler. destruct (invalid_credentials (teachers s) u p) eqn:E.
  - apply invalid_credentials_true in E. split; [done |]. intros H. by destruct E, H.
  - apply invalid_credentials_false in E. done.
Qed.

(** C5: once the credential check is passed or skipped, unregister answers
    404 for a name that is not a key of the store and otherwise 400 for an
    email that is not among the participants of the activity. *)
Theorem unregister_preconditions activity_name email username password s :
  auth_passed (teachers s) username password →
  (activities s !! activity_name = None →
     unregister_from_activity activity_name email username password s
     = (Raised (HTTPException NotFound "Activity not found"), s))
  ∧ (∀ a, activities s !! activity_name = Some a →
       email ∉ participants a →
       unregister_from_activity activity_name email username password s
       = (Raised (HTTPException Conflict "Student is not signed up for this activity"), s)).
Proof.
  intros Hauth. rewrite (auth_passed_unregister _ _ _ _ _ Hauth). split.
  - apply unregister_unknown.
  - apply unregister_absent.
Qed.

Lemma unregister_preconditions_witness :
  unregister_from_activity "Unknown Club" "a@x.com" (Some "teacher1") (Some "secret") store0
  = (Raised (HTTPException 404 "Activity not found"), store0)
  ∧ unregister_from_activity "Chess Club" "z@x.com" None None store0
    = (Raised (HTTPException 400 "Student is not signed up for this activity"), store0).
Proof.
  destruct (unregister_preconditions "Unknown Club" "a@x.com"
              (Some "teacher1") (Some "secret") store0) as [Hmissing _].
  { intros _. reflexivity. }
  destruct (unregister_preconditions "Chess Club" "z@x.com" None None store0)
    as [_ Habsent].
  { exact I. }
  split.
  - apply Hmissing. reflexivity.
  - apply (Habsent chess); [reflexivity |]. apply list_contains_false. reflexivity.
Defined.

(** C6: for an activity of the store and an email among its participants,
    unregister succeeds exactly when the credential check is passed or
    skipped, and then the stored list is the old one without the first
    occurrence of the email, in the same order; the attributes of the
    activity, every other activity and the teachers are as before, and on a
    list without duplicates the email is gone. *)
Theorem unregister_removes_exactly activity_name email username password s a :
  activities s !! activity_name = Some a →
  email ∈ participants a →
  (succeeded (fst (unregister_from_activity activity_name email username password s)) = true
   ↔ auth_passed (teachers s) username password)
  ∧ (succeeded (fst (unregister_from_activity activity_name email username password s)) = true →
     ∃ s' l1 l2,
       unregister_from_activity activity_name email username password s
       = (Returned (MessageBody ("Unregistered " +:+ email +:+ " from " +:+ activity_name)), s')
       ∧ participants a = l1 ++ email :: l2
       ∧ (email ∉ l1)
       ∧ activities s' !! activity_name
         = Some (mkActivity (description a) (schedule a) (max_participants a) (l1 ++ l2))
       ∧ (∀ other, other ≠ activity_name → activities s' !! other = activities s !! other)
       ∧ teachers s' = teachers s
       ∧ (NoDup (participants a) → email ∉ l1 ++ l2)).
Proof.
  intros Ha Hin.
  assert (succeeded (fst (unregister_from_activity activity_name email username password s)) = true
          ↔ auth_passed (teachers s) username password) as Hiff.
  { destruct (decide (auth_passed (teachers s) username password)) as [Hauth|Hauth].
    - rewrite (auth_passed_unregister _ _ _ _ _ Hauth).
      by destruct (unregister_member activity_name email s a Ha Hin) as (l1 & l2 & _ & _ & ->).
    - by rewrite (auth_failed_unregister _ _ _ _ _ Hauth). }
  split; [done |]. intros Hauth%Hiff.
  rewrite (auth_passed_unregister _ _ _ _ _ Hauth).
  destruct (unregister_member activity_name email s a Ha Hin) as (l1 & l2 & Hl & Hn & ->).
  eexists _, l1, l2. split_and!; [done | done | done | | | done |].
  - simpl. apply lookup_insert_eq.
  - intros other Hne. simpl. by apply lookup_insert_ne.
  - rewrite Hl. intros Hnd Hel.
    apply NoDup_app in Hnd as (_ & _ & [Hnot _]%NoDup_cons).
    apply elem_of_app in Hel as [Hel|Hel]; done.
Qed.

Lemma unregister_removes_exactly_witness :
  ∃ s',
    unregister_from_activity "Choir" "b@x.com" (Some "teacher1") (Some "secret") store_choir
    = (Returned (MessageBody "Unregistered b@x.com from Choir"), s')
    ∧ participants_of "Choir" s' = Some ["a@x.com"; "c@x.com"]
    ∧ participants_of "Chess Club" s' = Some ["a@x.com"]
    ∧ teachers s' = teachers store_choir.
Proof.
  destruct (unregister_removes_exactly "Choir" "b@x.com" (Some "teacher1") (Some "secret")
              store_choir choir) as [_ H].
  { reflexivity. }
  { apply list_contains_true. reflexivity. }
  destruct H as (s' & l1 & l2 & Hrun & _ & _ & _ & _ & _ & _).
  { reflexivity. }
  exists s'. rewrite Hrun.
  injection Hrun as <-. vm_compute. done.
Defined.

(** ** Properties of every route *)

(** C7: if no activity of the store lists an email twice before a call, none
    does after it, whichever route is called and whether it returns or
    raises. *)
Theorem handle_preserves_no_duplicates r s :
  no_duplicate_participants s →
  no_duplicate_participants (snd (handle r s)).
Proof.
  intros Hinv. destruct (handle_effect r s) as [c d _|b|b n a e Ha Hn|b n a e l1 l2 Ha Hl Hn];
    [done | done | |].
  - intros name a'. simpl. rewrite lookup_insert.
    case_decide as Heq; [| apply Hinv].
    intros [= <-]. simpl. apply append_NoDup; [done |]. by apply (Hinv n).
  - intros name a'. simpl. rewrite lookup_insert.
    case_decide as Heq; [| apply Hinv].
    intros [= <-]. simpl. specialize (Hinv n a Ha). rewrite Hl in Hinv.
    apply NoDup_app in Hinv as (H1 & H2 & [_ H3]%NoDup_cons).
    apply NoDup_app. split_and!; [done | | done].
    intros y Hy Hy2. apply (H2 y Hy). by right.
Qed.

Lemma handle_preserves_no_duplicates_witness :
  no_duplicate_participants store0
  ∧ no_duplicate_participants (snd (handle (PostSignup "Chess Club" "b@x.com") store0))
  ∧ no_duplicate_participants
      (snd (handle (DeleteUnregister "Chess Club" "a@x.com" None None) store0)).
Proof.
  assert (no_duplicate_participants store0) as H0.
  { intros name a. unfold store0. simpl.
    intros [_ <-]%lookup_singleton_Some. simpl. apply NoDup_singleton. }
  split_and!.
  - exact H0.
  - apply (handle_preserves_no_duplicates (PostSignup "Chess Club" "b@x.com") store0 H0).
  - apply (handle_preserves_no_duplicates
             (DeleteUnregister "Chess Club" "a@x.com" None None) store0 H0).
Defined.

(** C8: after any call the store has the activity names it had before and
    the same teachers, and every activity has the description, the schedule
    and the capacity it had before: only participants lists change. *)
Theorem handle_frame r s :
  dom (activities (snd (handle r s))) = dom (activities s)
  ∧ teachers (snd (handle r s)) = teachers s
  ∧ (∀ name a', activities (snd (handle r s)) !! name = Some a' →
       ∃ a, activities s !! name = Some a ∧ same_attributes a a').
Proof.
  assert (∀ name a' : _, activities s !! name = Some a' →
            ∃ a, activities s !! name = Some a ∧ same_attributes a a') as Hsame.
  { intros name a' H. by exists a'. }
  assert (∀ n (a : Activity) ps, activities s !! n = Some a →
            dom (<[n := with_participants ps a]> (activities s)) = dom (activities s)
            ∧ (∀ name a', <[n := with_participants ps a]> (activities s) !! name = Some a' →
                 ∃ a0, activities s !! name = Some a0 ∧ same_attributes a0 a')) as Hins.
  { intros n a ps Ha. split.
    - apply dom_insert_lookup_L. by exists a.
    - intros name a'. rewrite lookup_insert. case_decide as Heq.
      + intros [= <-]. subst name. by exists a.
      + apply Hsame. }
  destruct (handle_effect r s) as [c d _|b|b n a e Ha Hn|b n a e l1 l2 Ha Hl Hn]; simpl.
  - done.
  - done.
  - destruct (Hins n a (participants a ++ [e]) Ha). done.
  - destruct (Hins n a (l1 ++ l2) Ha). done.
Qed.

Lemma handle_frame_witness :
  dom (activities (snd (handle (PostSignup "Chess Club" "b@x.com") store0)))
  = dom (activities store0)
  ∧ teachers (snd (handle (PostSignup "Chess Club" "b@x.com") store0)) = teachers store0
  ∧ ∃ a, activities store0 !! "Chess Club" = Some a
         ∧ same_attributes a
             (mkActivity "Learn strategies" "Fridays" 12 ["a@x.com"; "b@x.com"]).
Proof.
  destruct (handle_frame (PostSignup "Chess Club" "b@x.com") store0) as (Hdom & Ht & Hattr).
  split_and!; [exact Hdom | exact Ht |].
  apply (Hattr "Chess Club"). reflexivity.
Defined.

(** C9: a call that raises leaves the activities and the teachers exactly as
    they were, and what it raises is one of the three HTTP errors 401, 404
    and 400. *)
Theorem handle_error_atomic r s e :
  fst (handle r s) = Raised e →
  snd (handle r s) = s
  ∧ ∃ c d, e = HTTPException c d ∧ c ∈ [Unauthorized; NotFound; Conflict].
Proof.
  destruct (handle_effect r s) as [c d Hc|b|b n a em Ha Hn|b n a em l1 l2 Ha Hl Hn];
    intros [= <-]. eauto.
Qed.

Lemma handle_error_atomic_witness :
  snd (handle (DeleteUnregister "Chess Club" "a@x.com" (Some "teacher1") (Some "guess")) store0)
  = store0
  ∧ snd (handle (PostSignup "Unknown Club" "a@x.com") store0) = store0
  ∧ snd (handle (PostSignup "Chess Club" "a@x.com") store0) = store0.
Proof.
  split_and!.
  - eapply (handle_error_atomic
              (DeleteUnregister "Chess Club" "a@x.com" (Some "teacher1") (Some "guess")) store0).
    reflexivity.
  - eapply (handle_error_atomic (PostSignup "Unknown Club" "a@x.com") store0). reflexivity.
  - eapply (handle_error_atomic (PostSignup "Chess Club" "a@x.com") store0). reflexivity.
Defined.

(** ** The scenario of the specification *)

Example scenario_trace :
  let '(o1, s1) := signup_for_activity "Chess Club" "b@x.com" store0 in
  let '(o2, s2) := signup_for_activity "Chess Club" "a@x.com" s1 in
  let '(o3, s3) := unregister_from_activity "Chess Club" "a@x.com" None None s2 in
  let '(o4, s4) := unregister_from_activity "Chess Club" "z@x.com" None None s3 in
  let '(o5, s5) := signup_for_activity "Unknown Club" "a@x.com" s4 in
  succeeded o1 = true
  ∧ participants_of "Chess Club" s1 = Some ["a@x.com"; "b@x.com"]
  ∧ status_of o2 = Some Conflict
  ∧ succeeded o3 = true
  ∧ participants_of "Chess Club" s3 = Some ["b@x.com"]
  ∧ status_of o4 = Some Conflict
  ∧ status_of o5 = Some NotFound.
Proof. vm_compute. done. Qed.

(** ** More on the list operations *)

Lemma list_remove_fresh_end x l : x ∉ l → list_remove x (l ++ [x]) = Some l.
Proof.
  induction l as [|y l IH]; simpl; intros Hx.
  - by rewrite String.eqb_refl.
  - apply not_elem_of_cons in Hx as [Hne Hx].
    destruct (String.eqb y x) eqn:E.
    + apply String.eqb_eq in E. congruence.
    + by rewrite (IH Hx).
Qed.

Lemma list_remove_Permutation x l r : list_remove x l = Some r → l ≡ₚ r ++ [x].
Proof.
  intros (l1 & l2 & -> & _ & ->)%list_remove_Some.
  rewrite <- (assoc_L (++)). apply Permutation_app_head.
  by rewrite <- Permutation_cons_append.
Qed.

Lemma occurrences_cons x y l :
  occurrences x (y :: l) = ((if bool_decide (y = x) then 1 else 0) + occurrences x l)%nat.
Proof.
  unfold occurrences. rewrite filter_cons.
  destruct (decide (y = x)) as [H|H].
  - by rewrite (bool_decide_eq_true_2 _ H).
  - by rewrite (bool_decide_eq_false_2 _ H).
Qed.

Lemma occurrences_zero x l : occurrences x l = 0%nat ↔ x ∉ l.
Proof.
  induction l as [|y l IH].
  - split; [intros _; apply not_elem_of_nil | done].
  - rewrite occurrences_cons, not_elem_of_cons. case_bool_decide as H.
    + split; [done | intros [Hne _]; congruence].
    + simpl. rewrite IH. split; [intros ?; split; congruence | by intros [_ ?]].
Qed.

Lemma list_remove_occurrences x e l r :
  list_remove e l = Some r →
  occurrences x l = ((if bool_decide (x = e) then 1 else 0) + occurrences x r)%nat.
Proof.
  revert r. induction l as [|y l IH]; intros r; simpl; [done |].
  destruct (String.eqb y e) eqn:E.
  - apply String.eqb_eq in E as ->. intros [= <-]. rewrite occurrences_cons.
    f_equal. repeat case_bool_decide; congruence.
  - apply String.eqb_neq in E.
    destruct (list_remove e l) as [r'|]; [| done]. intros [= <-].
    rewrite !occurrences_cons, (IH r' eq_refl). lia.
Qed.

(** ** The calls, by what they do to the store *)

Lemma unregister_removes activity_name email s a ps :
  activities s !! activity_name = Some a →
  list_remove email (participants a) = Some ps →
  unregister_from_activity activity_name email None None s
  = (Returned (MessageBody ("Unregistered " +:+ email +:+ " from " +:+ activity_name)),
     mkStore (<[activity_name := with_participants ps a]> (activities s)) (teachers s)).
Proof.
  intros Ha Hr.
  assert (email ∈ participants a) as Hin.
  { destruct (decide (email ∈ participants a)) as [|Hn]; [done |].
    apply list_remove_None in Hn. congruence. }
  apply list_contains_true in Hin.
  unfold unregister_from_activity, check_teacher. run_handler.
  rewrite (dict_contains_Some _ _ _ Ha). simpl. rewrite Ha. rewrite Hin. simpl.
  rewrite Ha. by rewrite Hr.
Qed.

Lemma with_participants_same a : with_participants (participants a) a = a.
Proof. by destruct a. Qed.

Lemma with_participants_twice ps qs a :
  with_participants ps (with_participants qs a) = with_participants ps a.
Proof. done. Qed.

(** The store after a call: as before, or with one email appended by this
    signup, or with one email removed by this unregister. *)
Lemma handle_store r s :
  snd (handle r s) = s
  ∨ (∃ n e a, r = PostSignup n e ∧ activities s !! n = Some a ∧ (e ∉ participants a)
       ∧ succeeded (fst (handle r s)) = true
       ∧ snd (handle r s)
         = mkStore (<[n := with_participants (participants a ++ [e]) a]> (activities s))
                   (teachers s))
  ∨ (∃ n e u p a ps, r = DeleteUnregister n e u p ∧ activities s !! n = Some a
       ∧ list_remove e (participants a) = Some ps
       ∧ succeeded (fst (handle r s)) = true
       ∧ snd (handle r s)
         = mkStore (<[n := with_participants ps a]> (activities s)) (teachers s)).
Proof.
  destruct r as [| |u p|n e|n e u p]; simpl.
  - by left.
  - by left.
  - left. destruct (decide (teachers s !! u = Some p)) as [H|H].
    + by rewrite (login_valid _ _ _ H).
    + by rewrite (login_invalid _ _ _ H).
  - destruct (activities s !! n) as [a|] eqn:Ha.
    + destruct (decide (e ∈ participants a)) as [Hin|Hin].
      * left. by rewrite (signup_member _ _ _ a Ha Hin).
      * right. left. exists n, e, a. by rewrite (signup_fresh _ _ _ a Ha Hin).
    + left. by rewrite (signup_unknown _ _ _ Ha).
  - destruct (decide (auth_passed (teachers s) u p)) as [Hauth|Hauth].
    + rewrite (auth_passed_unregister _ _ _ _ _ Hauth).
      destruct (activities s !! n) as [a|] eqn:Ha.
      * destruct (list_remove e (participants a)) as [ps|] eqn:Hr.
        -- right. right. exists n, e, u, p, a, ps.
           by rewrite (unregister_removes _ _ _ a ps Ha Hr).
        -- left. apply list_remove_None in Hr.
           by rewrite (unregister_absent _ _ _ a Ha Hr).
      * left. by rewrite (unregister_unknown _ _ _ Ha).
    + left. by rewrite (auth_failed_unregister _ _ _ _ _ Hauth).
Qed.

(** A signup or an unregister call reads the record of its activity and the
    teachers, and writes at most the record of its activity. *)
Lemma handle_update r n :
  target r = Some n →
  ∃ f : option Activity → gmap string string → Outcome Response * option Activity,
    ∀ s, handle r s
         = (fst (f (activities s !! n) (teachers s)),
            mkStore (partial_alter (λ _, snd (f (activities s !! n) (teachers s))) n
                       (activities s))
                    (teachers s)).
Proof.
  assert (∀ s : Store,
            s = mkStore (partial_alter (λ _, activities s !! n) n (activities s))
                        (teachers s)) as Hsame.
  { intros [acts t]. simpl. by rewrite partial_alter_self. }
  destruct r as [| |u p|n' e|n' e u p]; simpl; intros [= ->].
  - exists (λ oa _,
      match oa with
      | None => (Raised (HTTPException 404 "Activity not found"), None)
      | Some a =>
          if decide (e ∈ participants a)
          then (Raised (HTTPException 400 "Student is already signed up"), Some a)
          else (Returned (MessageBody ("Signed up " +:+ e +:+ " for " +:+ n)),
                Some (with_participants (participants a ++ [e]) a))
      end).
    intros s. destruct (activities s !! n) as [a|] eqn:Ha.
    + destruct (decide (e ∈ participants a)) as [Hin|Hin]; simpl.
      * rewrite (signup_member _ _ _ a Ha Hin), <- Ha. f_equal. apply Hsame.
      * by rewrite (signup_fresh _ _ _ a Ha Hin).
    + simpl. rewrite (signup_unknown _ _ _ Ha), <- Ha. f_equal. apply Hsame.
  - exists (λ oa t,
      if decide (auth_passed t u p)
      then
        match oa with
        | None => (Raised (HTTPException 404 "Activity not found"), None)
        | Some a =>
            match list_remove e (participants a) with
            | None =>
                (Raised (HTTPException 400 "Student is not signed up for this activity"),
                 Some a)
            | Some ps =>
                (Returned (MessageBody ("Unregistered " +:+ e +:+ " from " +:+ n)),
                 Some (with_participants ps a))
            end
        end
      else (Raised (HTTPException 401 "Invalid teacher credentials"), oa)).
    intros s. destruct (decide (auth_passed (teachers s) u p)) as [Hauth|Hauth].
    + rewrite (auth_passed_unregister _ _ _ _ _ Hauth).
      destruct (activities s !! n) as [a|] eqn:Ha.
      * destruct (list_remove e (participants a)) as [ps|] eqn:Hr; simpl.
        -- by rewrite (unregister_removes _ _ _ a ps Ha Hr).
        -- apply list_remove_None in Hr.
           rewrite (unregister_absent _ _ _ a Ha Hr), <- Ha. f_equal. apply Hsame.
      * simpl. rewrite (unregister_unknown _ _ _ Ha), <- Ha. f_equal. apply Hsame.
    + rewrite (auth_failed_unregister _ _ _ _ _ Hauth). simpl. f_equal. apply Hsame.
Qed.

(** ** Signup and unregister, one after the other *)

(** X1: a signup of a new email followed by its unregister (credential
    check passed or skipped) gives back exactly the store before the two
    calls. *)
Theorem signup_then_unregister_restores activity_name email username password s a :
  activities s !! activity_name = Some a →
  email ∉ participants a →
  auth_passed (teachers s) username password →
  succeeded (fst (signup_for_activity activity_name email s)) = true
  ∧ unregister_from_activity activity_name email username password
      (snd (signup_for_activity activity_name email s))
    = (Returned (MessageBody ("Unregistered " +:+ email +:+ " from " +:+ activity_name)), s).
Proof.
  intros Ha Hin Hauth. rewrite (signup_fresh _ _ _ a Ha Hin). simpl.
  split; [done |].
  rewrite auth_passed_unregister by done.
  erewrite unregister_removes;
    [| apply lookup_insert_eq | simpl; by apply list_remove_fresh_end].
  simpl. rewrite insert_insert_eq, with_participants_twice, with_participants_same.
  rewrite (insert_id _ _ _ Ha). by destruct s.
Qed.

Lemma signup_then_unregister_restores_witness :
  unregister_from_activity "Chess Club" "b@x.com" (Some "teacher1") (Some "secret")
    (snd (signup_for_activity "Chess Club" "b@x.com" store0))
  = (Returned (MessageBody "Unregistered b@x.com from Chess Club"), store0).
Proof.
  apply (signup_then_unregister_restores "Chess Club" "b@x.com"
           (Some "teacher1") (Some "secret") store0 chess).
  - reflexivity.
  - apply list_contains_false. reflexivity.
  - intros _. reflexivity.
Defined.

(** X2: on a list without duplicates, an unregister followed by a signup of
    the same email succeeds and moves the email to the end of the list: the
    same participants, but not the store before the two calls unless the
    email was last. *)
Theorem unregister_then_signup_moves_to_end activity_name email username password s a :
  activities s !! activity_name = Some a →
  email ∈ participants a →
  NoDup (participants a) →
  auth_passed (teachers s) username password →
  ∃ l1 l2,
    participants a = l1 ++ email :: l2
    ∧ signup_for_activity activity_name email
        (snd (unregister_from_activity activity_name email username password s))
      = (Returned (MessageBody ("Signed up " +:+ email +:+ " for " +:+ activity_name)),
         mkStore (<[activity_name :=
                      mkActivity (description a) (schedule a) (max_participants a)
                                 (l1 ++ l2 ++ [email])]> (activities s))
                 (teachers s))
    ∧ l1 ++ l2 ++ [email] ≡ₚ participants a.
Proof.
  intros Ha Hin Hnd Hauth. rewrite (auth_passed_unregister _ _ _ _ _ Hauth).
  destruct (unregister_member activity_name email s a Ha Hin) as (l1 & l2 & Hl & Hn & ->).
  exists l1, l2. split; [done |]. simpl.
  assert (email ∉ l1 ++ l2) as Hgone.
  { rewrite Hl in Hnd. apply NoDup_app in Hnd as (_ & _ & [Hnot _]%NoDup_cons).
    intros [?|?]%elem_of_app; done. }
  split.
  - erewrite signup_fresh; [| apply lookup_insert_eq | done].
    simpl. rewrite insert_insert_eq. unfold with_participants. simpl.
    by rewrite <- (assoc_L (++)).
  - rewrite Hl. apply Permutation_app_head. by rewrite <- Permutation_cons_append.
Qed.

Lemma unregister_then_signup_moves_to_end_witness :
  ∃ l1 l2,
    participants choir = l1 ++ "a@x.com" :: l2
    ∧ signup_for_activity "Choir" "a@x.com"
        (snd (unregister_from_activity "Choir" "a@x.com" None None store_choir))
      = (Returned (MessageBody ("Signed up " +:+ "a@x.com" +:+ " for " +:+ "Choir")),
         mkStore (<["Choir" :=
                      mkActivity (description choir) (schedule choir) (max_participants choir)
                                 (l1 ++ l2 ++ ["a@x.com"])]> (activities store_choir))
                 (teachers store_choir))
    ∧ l1 ++ l2 ++ ["a@x.com"] ≡ₚ participants choir.
Proof.
  apply (unregister_then_signup_moves_to_end "Choir" "a@x.com" None None store_choir choir).
  - reflexivity.
  - apply list_contains_true. reflexivity.
  - apply (bool_decide_unpack (NoDup (participants choir))). vm_compute. exact I.
  - exact I.
Defined.

(** X3: a successful unregister takes away one listing of the email and no
    listing of anybody else; an email that was listed twice is therefore
    still a participant afterwards. *)
Theorem unregister_removes_one_listing activity_name email username password s a :
  activities s !! activity_name = Some a →
  email ∈ participants a →
  auth_passed (teachers s) username password →
  ∃ a',
    activities (snd (unregister_from_activity activity_name email username password s))
      !! activity_name = Some a'
    ∧ (∀ x, occurrences x (participants a)
            = ((if bool_decide (x = email) then 1 else 0)
               + occurrences x (participants a'))%nat)
    ∧ (email ∈ participants a' ↔ (2 ≤ occurrences email (participants a))%nat).
Proof.
  intros Ha Hin Hauth. rewrite (auth_passed_unregister _ _ _ _ _ Hauth).
  destruct (list_remove_elem _ _ Hin) as [ps Hr].
  rewrite (unregister_removes _ _ _ a ps Ha Hr). simpl.
  exists (with_participants ps a). rewrite lookup_insert_eq. simpl.
  split_and!; [done | |].
  - intros x. by apply list_remove_occurrences.
  - rewrite (list_remove_occurrences email _ _ _ Hr).
    rewrite bool_decide_eq_true_2 by done.
    destruct (occurrences email ps) as [|k] eqn:Hk.
    + apply occurrences_zero in Hk. split; [done | lia].
    + split; [lia |]. intros _.
      destruct (decide (email ∈ ps)) as [|Hn]; [done |].
      apply occurrences_zero in Hn. lia.
Qed.

Lemma unregister_removes_one_listing_witness :
  ∃ a',
    activities (snd (unregister_from_activity "Chess Club" "a@x.com" None None store_twice))
      !! "Chess Club" = Some a'
    ∧ "a@x.com" ∈ participants a'.
Proof.
  destruct (unregister_removes_one_listing "Chess Club" "a@x.com" None None store_twice
              (mkActivity "Learn strategies" "Fridays" 12 ["a@x.com"; "b@x.com"; "a@x.com"]))
    as (a' & Ha' & _ & Hstill).
  - reflexivity.
  - apply list_contains_true. reflexivity.
  - exact I.
  - exists a'. split; [exact Ha' |]. apply Hstill. vm_compute. lia.
Defined.

(** ** Calls on different activities *)

(** X4: for two signup or unregister calls that name different activities,
    neither changes what the other answers, and the two orders leave the
    same store. *)
Theorem calls_on_different_activities_commute r1 r2 n1 n2 s :
  target r1 = Some n1 →
  target r2 = Some n2 →
  n1 ≠ n2 →
  fst (handle r2 (snd (handle r1 s))) = fst (handle r2 s)
  ∧ fst (handle r1 (snd (handle r2 s))) = fst (handle r1 s)
  ∧ snd (handle r2 (snd (handle r1 s))) = snd (handle r1 (snd (handle r2 s))).
Proof.
  intros [f1 H1]%handle_update [f2 H2]%handle_update Hne.
  rewrite (H1 s), (H2 s). simpl.
  rewrite H1, H2. simpl.
  rewrite !lookup_partial_alter_ne by done.
  split_and!; [done | done |]. f_equal.
  rewrite partial_alter_partial_alter. by rewrite decide_False.
Qed.

Lemma calls_on_different_activities_commute_witness :
  snd (handle (DeleteUnregister "Chess Club" "a@x.com" None None)
         (snd (handle (PostSignup "Choir" "d@x.com") store_choir)))
  = snd (handle (PostSignup "Choir" "d@x.com")
           (snd (handle (DeleteUnregister "Chess Club" "a@x.com" None None) store_choir))).
Proof.
  apply (calls_on_different_activities_commute
           (PostSignup "Choir" "d@x.com")
           (DeleteUnregister "Chess Club" "a@x.com" None None)
           "Choir" "Chess Club" store_choir).
  - reflexivity.
  - reflexivity.
  - discriminate.
Defined.

(** X5: what a signup or an unregister call answers, and the record it
    leaves for its activity, depend only on the record of that activity and
    on the teachers; the records of all other activities stay as they
    are. *)
Theorem call_depends_on_its_activity r n s1 s2 :
  target r = Some n →
  activities s1 !! n = activities s2 !! n →
  teachers s1 = teachers s2 →
  fst (handle r s1) = fst (handle r s2)
  ∧ activities (snd (handle r s1)) !! n = activities (snd (handle r s2)) !! n
  ∧ (∀ other, other ≠ n →
       activities (snd (handle r s1)) !! other = activities s1 !! other).
Proof.
  intros [f H]%handle_update Hn Ht. rewrite (H s1), (H s2). simpl.
  rewrite Hn, Ht, !lookup_partial_alter_eq. split_and!; [done | done |].
  intros other Hne. by rewrite lookup_partial_alter_ne.
Qed.

Lemma call_depends_on_its_activity_witness :
  fst (handle (PostSignup "Chess Club" "b@x.com") store_choir)
  = fst (handle (PostSignup "Chess Club" "b@x.com") store0).
Proof.
  apply (call_depends_on_its_activity (PostSignup "Chess Club" "b@x.com")
           "Chess Club" store_choir store0); reflexivity.
Defined.

(** X6: a call adds nobody but the student a signup names, to the activity
    it names, and drops nobody but the student an unregister names, from
    the activity it names. *)
Theorem handle_touches_only_the_named_student r s name a a' x :
  activities s !! name = Some a →
  activities (snd (handle r s)) !! name = Some a' →
  (x ∈ participants a' → x ∈ participants a ∨ r = PostSignup name x)
  ∧ (x ∈ participants a →
       x ∈ participants a' ∨ ∃ u p, r = DeleteUnregister name x u p).
Proof.
  intros Ha Ha'.
  destruct (handle_store r s)
    as [Hs | [(n & e & b & -> & Hb & Hn & _ & Hs) | (n & e & u & p & b & ps & -> & Hb & Hr & _ & Hs)]];
    rewrite Hs in Ha'; simpl in Ha'.
  - assert (a' = a) as -> by congruence. split; by left.
  - rewrite lookup_insert in Ha'. case_decide as Heq.
    + subst n. injection Ha' as <-. assert (b = a) as -> by congruence. simpl. split.
      * intros [ ? | Hx%list_elem_of_singleton ]%elem_of_app; [by left | right; by subst x].
      * intros ?. left. apply elem_of_app. by left.
    + assert (a' = a) as -> by congruence. split; by left.
  - rewrite lookup_insert in Ha'. case_decide as Heq.
    + subst n. injection Ha' as <-. assert (b = a) as -> by congruence. simpl.
      apply list_remove_Some in Hr as (l1 & l2 & -> & _ & ->). split.
      * intros [?|?]%elem_of_app; left; apply elem_of_app; [by left | right; by right].
      * intros [ ? | [ -> | ? ]%elem_of_cons ]%elem_of_app.
        -- left. apply elem_of_app. by left.
        -- right. by exists u, p.
        -- left. apply elem_of_app. by right.
    + assert (a' = a) as -> by congruence. split; by left.
Qed.

Lemma handle_touches_only_the_named_student_witness :
  "b@x.com" ∈ participants choir
  ∧ ("b@x.com" ∈ ["a@x.com"; "c@x.com"]
     ∨ ∃ u p, DeleteUnregister "Choir" "b@x.com" None None
              = DeleteUnregister "Choir" "b@x.com" u p).
Proof.
  assert ("b@x.com" ∈ participants choir) as Hin.
  { apply list_contains_true. reflexivity. }
  split; [exact Hin |].
  apply (handle_touches_only_the_named_student
           (DeleteUnregister "Choir" "b@x.com" None None) store_choir "Choir" choir
           (mkActivity "Rehearsal" "Tuesdays" 20 ["a@x.com"; "c@x.com"]) "b@x.com").
  - reflexivity.
  - reflexivity.
  - exact Hin.
Defined.

(** ** Many calls in a row *)

(** X7: signups of any number of different new emails to one activity, one
    after the other, all succeed and leave the old list followed by the new
    emails in the order of the calls; the capacity plays no part however
    long the list gets. *)
Theorem signups_append_in_order activity_name emails s a :
  activities s !! activity_name = Some a →
  NoDup emails →
  (∀ e, e ∈ emails → e ∉ participants a) →
  serve (PostSignup activity_name <$> emails) s
  = ((λ e, Returned (MessageBody ("Signed up " +:+ e +:+ " for " +:+ activity_name)))
       <$> emails,
     mkStore (<[activity_name :=
                  mkActivity (description a) (schedule a) (max_participants a)
                             (participants a ++ emails)]> (activities s))
             (teachers s)).
Proof.
  revert s a. induction emails as [|e emails IH]; intros s a Ha Hnd Hnew.
  - simpl. rewrite app_nil_r. f_equal.
    change (mkActivity _ _ _ (participants a)) with (with_participants (participants a) a).
    rewrite with_participants_same, (insert_id _ _ _ Ha). by destruct s.
  - apply NoDup_cons in Hnd as [He Hnd].
    assert (e ∉ participants a) as Hin by (apply Hnew; by left).
    rewrite fmap_cons. cbn [serve handle].
    rewrite (signup_fresh _ _ _ a Ha Hin).
    erewrite IH; [| apply lookup_insert_eq | done |].
    + simpl. rewrite insert_insert_eq. by rewrite <- (assoc_L (++)).
    + simpl. intros e' He' [ Hold | Hx%list_elem_of_singleton ]%elem_of_app;
        [| by subst e'].
      revert Hold. apply Hnew. by right.
Qed.

Lemma signups_append_in_order_witness :
  serve [PostSignup "Debate" "c@x.com"; PostSignup "Debate" "d@x.com"] store_debate
  = ([Returned (MessageBody "Signed up c@x.com for Debate");
      Returned (MessageBody "Signed up d@x.com for Debate")],
     mkStore (<["Debate" := mkActivity "Full house" "Mondays" 1
                              ["a@x.com"; "b@x.com"; "c@x.com"; "d@x.com"]]>
                (activities store_debate))
             ∅).
Proof.
  apply (signups_append_in_order "Debate" ["c@x.com"; "d@x.com"] store_debate debate).
  - reflexivity.
  - apply (bool_decide_unpack (NoDup ["c@x.com"; "d@x.com"])). vm_compute. exact I.
  - intros e He. apply list_contains_false.
    apply elem_of_cons in He as [ -> | He ]; [reflexivity |].
    apply list_elem_of_singleton in He as ->. reflexivity.
Defined.

Lemma handle_keeps_names_and_teachers r s :
  dom (activities (snd (handle r s))) = dom (activities s)
  ∧ teachers (snd (handle r s)) = teachers s.
Proof.
  destruct (handle_store r s)
    as [-> | [(n & e & a & _ & Ha & _ & _ & ->) | (n & e & u & p & a & ps & _ & Ha & _ & _ & ->)]];
    simpl; (split; [| done]); [done | |]; apply dom_insert_lookup_L; by exists a.
Qed.

Lemma handle_keeps_no_duplicates r s :
  no_duplicate_participants s → no_duplicate_participants (snd (handle r s)).
Proof.
  intros Hinv.
  destruct (handle_store r s)
    as [-> | [(n & e & a & _ & Ha & Hn & _ & ->) | (n & e & u & p & a & ps & _ & Ha & Hr & _ & ->)]];
    [done | |]; intros name a'; simpl; rewrite lookup_insert;
    (case_decide as Heq; [| apply Hinv]); intros [= <-]; simpl.
  - apply append_NoDup; [done |]. by apply (Hinv n).
  - specialize (Hinv n a Ha).
    apply list_remove_Some in Hr as (l1 & l2 & Hl & _ & ->). rewrite Hl in Hinv.
    apply NoDup_app in Hinv as (H1 & H2 & [_ H3]%NoDup_cons).
    apply NoDup_app. split_and!; [done | | done].
    intros y Hy Hy2. apply (H2 y Hy). by right.
Qed.

Lemma login_reads_teachers u p s1 s2 :
  teachers s1 = teachers s2 → fst (login u p s1) = fst (login u p s2).
Proof.
  intros Ht. destruct (decide (teachers s1 !! u = Some p)) as [H|H].
  - rewrite (login_valid _ _ _ H). rewrite Ht in H. by rewrite (login_valid _ _ _ H).
  - rewrite (login_invalid _ _ _ H). rewrite Ht in H. by rewrite (login_invalid _ _ _ H).
Qed.

(** X8: whatever requests are served, in whatever number, each gets an
    answer, the set of activity names and the teachers stay those of the
    start, a store without duplicate participants stays without, and a
    login is answered at the end as it would have been at the start. *)
Theorem serve_keeps_names_and_credentials rs s :
  length (fst (serve rs s)) = length rs
  ∧ dom (activities (snd (serve rs s))) = dom (activities s)
  ∧ teachers (snd (serve rs s)) = teachers s
  ∧ (no_duplicate_participants s → no_duplicate_participants (snd (serve rs s)))
  ∧ (∀ u p, fst (login u p (snd (serve rs s))) = fst (login u p s)).
Proof.
  assert (length (fst (serve rs s)) = length rs
          ∧ dom (activities (snd (serve rs s))) = dom (activities s)
          ∧ teachers (snd (serve rs s)) = teachers s
          ∧ (no_duplicate_participants s → no_duplicate_participants (snd (serve rs s))))
    as (Hlen & Hdom & Ht & Hnd).
  { revert s. induction rs as [|r rs IH]; intros s; [done |].
    simpl. destruct (handle r s) as [o s1] eqn:Hr.
    destruct (serve rs s1) as [os s2] eqn:Hrs. simpl.
    destruct (IH s1) as (Hlen & Hdom & Ht & Hnd). rewrite Hrs in *. simpl in *.
    destruct (handle_keeps_names_and_teachers r s) as [Hdom1 Ht1].
    pose proof (handle_keeps_no_duplicates r s) as Hnd1.
    rewrite Hr in *. simpl in *.
    split_and!; [by f_equal | congruence | congruence | auto]. }
  split_and!; [done | done | done | done |].
  intros u p. by apply login_reads_teachers.
Qed.

Lemma serve_keeps_names_and_credentials_witness :
  no_duplicate_participants
    (snd (serve [PostSignup "Choir" "d@x.com";
                 DeleteUnregister "Choir" "a@x.com" None None;
                 PostSignup "Choir" "d@x.com"] store_choir)).
Proof.
  apply (serve_keeps_names_and_credentials
           [PostSignup "Choir" "d@x.com";
            DeleteUnregister "Choir" "a@x.com" None None;
            PostSignup "Choir" "d@x.com"] store_choir).
  intros name a. unfold store_choir. simpl. rewrite lookup_insert.
  case_decide.
  - intros [= <-]. apply (bool_decide_unpack (NoDup (participants choir))).
    vm_compute. exact I.
  - intros [_ <-]%lookup_singleton_Some.
    apply (bool_decide_unpack (NoDup (participants chess))). vm_compute. exact I.
Defined.

(** ** Login and the credential check of unregister *)

Lemma unregister_anonymous_not_unauthorized activity_name email s :
  status_of (fst (unregister_from_activity activity_name email None None s))
  ≠ Some Unauthorized.
Proof.
  destruct (activities s !! activity_name) as [a|] eqn:Ha.
  - destruct (decide (email ∈ participants a)) as [Hin|Hin].
    + by destruct (unregister_member activity_name email s a Ha Hin)
        as (l1 & l2 & _ & _ & ->).
    + by rewrite (unregister_absent _ _ _ a Ha Hin).
  - by rewrite (unregister_unknown _ _ _ Ha).
Qed.

(** X9: a pair that login accepts passes the credential check of
    unregister; a pair of two non-empty strings is refused by unregister
    exactly when login refuses it; a pair with an empty string is never
    refused by unregister, although login refuses it unless it is stored. *)
Theorem unregister_check_agrees_with_login activity_name email u p s :
  (succeeded (fst (login u p s)) = true →
     unregister_from_activity activity_name email (Some u) (Some p) s
     = unregister_from_activity activity_name email None None s)
  ∧ (u ≠ "" → p ≠ "" →
       (status_of (fst (unregister_from_activity activity_name email (Some u) (Some p) s))
        = Some Unauthorized
        ↔ status_of (fst (login u p s)) = Some Unauthorized))
  ∧ (u = "" ∨ p = "" →
       status_of (fst (unregister_from_activity activity_name email (Some u) (Some p) s))
       ≠ Some Unauthorized).
Proof.
  split_and!.
  - destruct (decide (teachers s !! u = Some p)) as [H|H].
    + intros _. by apply unregister_valid.
    + by rewrite (login_invalid _ _ _ H).
  - intros Hu Hp. destruct (decide (teachers s !! u = Some p)) as [H|H].
    + rewrite (unregister_valid _ _ _ _ _ H), (login_valid _ _ _ H). simpl.
      split; [| done]. intros Hno. by apply unregister_anonymous_not_unauthorized in Hno.
    + by rewrite (unregister_invalid _ _ _ _ _ Hu Hp H), (login_invalid _ _ _ H).
  - intros Hempty. rewrite unregister_skipped.
    + apply unregister_anonymous_not_unauthorized.
    + destruct Hempty as [-> | ->]; simpl; [done | apply andb_false_r].
Qed.

Lemma unregister_check_agrees_with_login_witness :
  unregister_from_activity "Chess Club" "a@x.com" (Some "teacher1") (Some "secret") store0
  = unregister_from_activity "Chess Club" "a@x.com" None None store0
  ∧ status_of (fst (unregister_from_activity "Chess Club" "a@x.com"
                      (Some "teacher1") (Some "guess") store0))
    = Some Unauthorized
  ∧ status_of (fst (unregister_from_activity "Chess Club" "a@x.com"
                      (Some "teacher1") (Some "") store0))
    ≠ Some Unauthorized.
Proof.
  destruct (unregister_check_agrees_with_login "Chess Club" "a@x.com" "teacher1" "secret" store0)
    as (Hok & _ & _).
  destruct (unregister_check_agrees_with_login "Chess Club" "a@x.com" "teacher1" "guess" store0)
    as (_ & Hbad & _).
  destruct (unregister_check_agrees_with_login "Chess Club" "a@x.com" "teacher1" "" store0)
    as (_ & _ & Hempty).
  split_and!.
  - apply Hok. reflexivity.
  - apply Hbad; [discriminate | discriminate | reflexivity].
  - apply Hempty. by right.
Defined.

(** ** The loaders *)

Lemma empty_activities_unchanged r t : snd (handle r (mkStore ∅ t)) = mkStore ∅ t.
Proof.
  destruct (handle_store r (mkStore ∅ t))
    as [Hs | [(n & e & a & _ & Ha & _) | (n & e & u & p & a & ps & _ & Ha & _)]];
    [done | |]; simpl in Ha; by rewrite lookup_empty in Ha.
Qed.

(** X10: when the activities file is missing or is not valid JSON, the
    loader prints one warning and returns the empty mapping; on that store
    the listing is empty, every signup and every unregister that gets past
    the credential check is answered with 404, and no request changes the
    store. *)
Theorem load_activities_fallback file f t :
  f = FileNotFoundError ∨ f = JSONDecodeError →
  fst (load_activities file f) = ∅
  ∧ length (snd (load_activities file f)) = 1%nat
  ∧ get_activities (mkStore (fst (load_activities file f)) t)
    = (Returned (ActivitiesBody ∅), mkStore ∅ t)
  ∧ (∀ n e, signup_for_activity n e (mkStore (fst (load_activities file f)) t)
            = (Raised (HTTPException NotFound "Activity not found"), mkStore ∅ t))
  ∧ (∀ n e u p, auth_passed t u p →
       unregister_from_activity n e u p (mkStore (fst (load_activities file f)) t)
       = (Raised (HTTPException NotFound "Activity not found"), mkStore ∅ t))
  ∧ (∀ r, snd (handle r (mkStore (fst (load_activities file f)) t)) = mkStore ∅ t).
Proof.
  intros Hf.
  assert (load_activities file f = (∅, snd (load_activities file f))
          ∧ length (snd (load_activities file f)) = 1%nat) as [Hload Hlen].
  { by destruct Hf as [-> | ->]. }
  rewrite Hload. simpl. split_and!; [done | done | done | | |].
  - intros n e. by apply signup_unknown.
  - intros n e u p Hauth.
    rewrite (auth_passed_unregister n e u p (mkStore ∅ t) Hauth).
    by apply unregister_unknown.
  - intros r. apply empty_activities_unchanged.
Qed.

Lemma load_activities_fallback_witness :
  signup_for_activity "Chess Club" "a@x.com"
    (mkStore (fst (load_activities "activities.json" JSONDecodeError)) (teachers store0))
  = (Raised (HTTPException 404 "Activity not found"), mkStore ∅ (teachers store0)).
Proof.
  apply (load_activities_fallback "activities.json" JSONDecodeError (teachers store0)).
  by right.
Defined.

(** X11: when the teachers file is missing, is not valid JSON, or has no
    ["teachers"] entry, the loader returns the empty mapping; then no login
    succeeds and an unregister with two non-empty credentials is always
    answered with 401, while an unregister without credentials still
    succeeds and removes the first listing of the email from the stored
    list. *)
Theorem load_teachers_fallback file f :
  f = FileNotFoundError ∨ f = JSONDecodeError
  ∨ (∃ data, f = Parsed data ∧ data !! "teachers" = None) →
  fst (load_teachers file f) = Returned ∅
  ∧ (∀ acts u p,
       login u p (mkStore acts ∅)
       = (Raised (HTTPException Unauthorized "Invalid credentials"), mkStore acts ∅))
  ∧ (∀ acts n e u p, u ≠ "" → p ≠ "" →
       unregister_from_activity n e (Some u) (Some p) (mkStore acts ∅)
       = (Raised (HTTPException Unauthorized "Invalid teacher credentials"),
          mkStore acts ∅))
  ∧ (∀ acts n e a, acts !! n = Some a → e ∈ participants a →
       ∃ l1 l2,
         participants a = l1 ++ e :: l2 ∧ (e ∉ l1)
         ∧ unregister_from_activity n e None None (mkStore acts ∅)
           = (Returned (MessageBody ("Unregistered " +:+ e +:+ " from " +:+ n)),
              mkStore (<[n := mkActivity (description a) (schedule a) (max_participants a)
                                         (l1 ++ l2)]> acts)
                      ∅)).
Proof.
  intros Hf. split_and!.
  - destruct Hf as [-> | [-> | (data & -> & Hd)]]; [done | done |].
    simpl. by rewrite Hd.
  - intros acts u p. apply login_invalid. simpl. by rewrite lookup_empty.
  - intros acts n e u p Hu Hp. apply unregister_invalid; [done | done |].
    simpl. by rewrite lookup_empty.
  - intros acts n e a Ha Hin.
    destruct (unregister_member n e (mkStore acts ∅) a Ha Hin) as (l1 & l2 & Hl & Hn & Hrun).
    by exists l1, l2.
Qed.

Lemma load_teachers_fallback_witness :
  fst (load_teachers "teachers.json" (Parsed ∅)) = Returned ∅
  ∧ login "teacher1" "secret" (mkStore (activities store0) ∅)
    = (Raised (HTTPException 401 "Invalid credentials"), mkStore (activities store0) ∅)
  ∧ ∃ l1 l2,
      participants chess = l1 ++ "a@x.com" :: l2 ∧ ("a@x.com" ∉ l1)
      ∧ unregister_from_activity "Chess Club" "a@x.com" None None
          (mkStore (activities store0) ∅)
        = (Returned (MessageBody ("Unregistered " +:+ "a@x.com" +:+ " from " +:+ "Chess Club")),
           mkStore (<["Chess Club" :=
                        mkActivity (description chess) (schedule chess)
                                   (max_participants chess) (l1 ++ l2)]>
                      (activities store0))
                   ∅).
Proof.
  destruct (load_teachers_fallback "teachers.json" (Parsed ∅))
    as (Hload & Hlogin & _ & Hremove).
  - right. right. exists ∅. split; reflexivity.
  - split_and!; [exact Hload | apply Hlogin |].
    apply (Hremove (activities store0) "Chess Club" "a@x.com" chess).
    + reflexivity.
    + apply list_contains_true. reflexivity.
Defined.

(** The mapping the comprehension builds, entry by entry. *)
Lemma teachers_comprehension_lookup entries acc t :
  teachers_comprehension entries acc = Returned t →
  ∀ u p,
    t !! u = Some p
    ↔ (∃ l1 e l2, entries = l1 ++ e :: l2 ∧ e !! "username" = Some u
         ∧ e !! "password" = Some p
         ∧ Forall (λ e', e' !! "username" ≠ Some u) l2)
      ∨ (Forall (λ e', e' !! "username" ≠ Some u) entries ∧ acc !! u = Some p).
Proof.
  revert acc. induction entries as [|teacher rest IH]; intros acc; simpl.
  - intros [= <-] u p. split.
    + intros H. right. by split.
    + intros [(l1 & e & l2 & Hl & _) | [_ H]]; [by destruct l1 | done].
  - destruct (teacher !! "username") as [u0|] eqn:Hu0; [| done].
    destruct (teacher !! "password") as [p0|] eqn:Hp0; [| done].
    intros Hrun u p. rewrite (IH _ Hrun u p). split.
    + intros [(l1 & e & l2 & -> & Hu & Hp & Hl2) | [Hrest Hacc]].
      * left. by exists (teacher :: l1), e, l2.
      * rewrite lookup_insert in Hacc. case_decide as Heq.
        -- subst u0. injection Hacc as ->. left. by exists [], teacher, rest.
        -- right. split; [| done]. constructor; [congruence | done].
    + intros [(l1 & e & l2 & Hl & Hu & Hp & Hl2) | [Hall Hacc]].
      * destruct l1 as [|x l1]; simpl in Hl; injection Hl as -> ->.
        -- right. split; [done |].
           assert (u0 = u) as -> by congruence. assert (p0 = p) as -> by congruence.
           apply lookup_insert_eq.
        -- left. by exists l1, e, l2.
      * apply Forall_cons in Hall as [Hne Hall]. right. split; [done |].
        rewrite lookup_insert_ne; [done | congruence].
Qed.

(** X12: when the loader returns, a username maps to the password of the
    last entry of the file that carries it, earlier entries with the same
    username do not count, and login accepts exactly these pairs. *)
Theorem load_teachers_last_entry_wins file data entries t :
  data !! "teachers" = Some entries →
  fst (load_teachers file (Parsed data)) = Returned t →
  ∀ u p,
    (t !! u = Some p
     ↔ ∃ l1 e l2, entries = l1 ++ e :: l2 ∧ e !! "username" = Some u
         ∧ e !! "password" = Some p
         ∧ Forall (λ e', e' !! "username" ≠ Some u) l2)
    ∧ (∀ acts, succeeded (fst (login u p (mkStore acts t))) = true ↔ t !! u = Some p).
Proof.
  intros Hd Hrun u p. simpl in Hrun. rewrite Hd in Hrun. simpl in Hrun. split.
  - rewrite (teachers_comprehension_lookup _ _ _ Hrun u p). split.
    + intros [H | [_ H]]; [done | by rewrite lookup_empty in H].
    + intros H. by left.
  - intros acts. destruct (decide (t !! u = Some p)) as [H|H].
    + by rewrite login_valid.
    + by rewrite login_invalid.
Qed.

Lemma load_teachers_last_entry_wins_witness :
  ∃ t,
    fst (load_teachers "teachers.json" (Parsed teachers_file_repeated)) = Returned t
    ∧ t !! "teacher1" = Some "new"
    ∧ succeeded (fst (login "teacher1" "new" (mkStore ∅ t))) = true.
Proof.
  exists (<["teacher1" := "new"]> (<["teacher2" := "pw2"]> {[ "teacher1" := "old" ]})).
  assert (fst (load_teachers "teachers.json" (Parsed teachers_file_repeated))
          = Returned (<["teacher1" := "new"]> (<["teacher2" := "pw2"]> {[ "teacher1" := "old" ]})))
    as Hrun by reflexivity.
  destruct (load_teachers_last_entry_wins "teachers.json" teachers_file_repeated
              [teacher_entry "teacher1" "old"; teacher_entry "teacher2" "pw2";
               teacher_entry "teacher1" "new"]
              _ eq_refl Hrun "teacher1" "new") as [Hlast Hlogin].
  split_and!.
  - exact Hrun.
  - apply Hlast.
    exists [teacher_entry "teacher1" "old"; teacher_entry "teacher2" "pw2"],
           (teacher_entry "teacher1" "new"), [].
    split_and!; [reflexivity | reflexivity | reflexivity | constructor].
  - apply Hlogin. reflexivity.
Defined.

Lemma teachers_comprehension_returns entries acc :
  Forall has_credentials entries
  ↔ succeeded (teachers_comprehension entries acc) = true.
Proof.
  revert acc. induction entries as [|teacher rest IH]; intros acc; simpl.
  - split; [done | constructor].
  - rewrite Forall_cons. unfold has_credentials at 1.
    destruct (teacher !! "username") as [u|]; [| split; [by intros [[[? ?] _] _] | done]].
    destruct (teacher !! "password") as [p|]; [| split; [by intros [[_ [? ?]] _] | done]].
    rewrite <- IH. split; [by intros [_ ?] | intros ?; split_and!; eauto].
Qed.

Lemma teachers_comprehension_raises l1 e l2 acc :
  Forall has_credentials l1 →
  (e !! "username" = None →
     teachers_comprehension (l1 ++ e :: l2) acc = Raised (KeyError "username"))
  ∧ (is_Some (e !! "username") → e !! "password" = None →
       teachers_comprehension (l1 ++ e :: l2) acc = Raised (KeyError "password")).
Proof.
  revert acc. induction l1 as [|teacher l1 IH]; intros acc Hall; simpl.
  - split.
    + by intros ->.
    + intros [u ->] ->. done.
  - apply Forall_cons in Hall as [[[u ->] [p ->]] Hall]. by apply IH.
Qed.

(** X13: a teachers file that parses but has an entry without ["username"]
    or without ["password"] makes the loader raise [KeyError] for the first
    field that is missing in the first such entry, with no warning printed
    and no fallback to the empty mapping; the loader returns exactly when
    every entry has both fields. *)
Theorem load_teachers_key_error file data entries :
  data !! "teachers" = Some entries →
  (Forall has_credentials entries
   ↔ succeeded (fst (load_teachers file (Parsed data))) = true)
  ∧ (∀ l1 e l2, entries = l1 ++ e :: l2 → Forall has_credentials l1 →
       e !! "username" = None →
       load_teachers file (Parsed data) = (Raised (KeyError "username"), []))
  ∧ (∀ l1 e l2, entries = l1 ++ e :: l2 → Forall has_credentials l1 →
       is_Some (e !! "username") → e !! "password" = None →
       load_teachers file (Parsed data) = (Raised (KeyError "password"), [])).
Proof.
  intros Hd. simpl. rewrite Hd. simpl. split_and!.
  - apply teachers_comprehension_returns.
  - intros l1 e l2 -> Hall Hu. f_equal.
    by apply (teachers_comprehension_raises l1 e l2 ∅ Hall).
  - intros l1 e l2 -> Hall Hu Hp. f_equal.
    by apply (teachers_comprehension_raises l1 e l2 ∅ Hall).
Qed.

Lemma load_teachers_key_error_witness :
  load_teachers "teachers.json" (Parsed teachers_file_broken)
  = (Raised (KeyError "password"), []).
Proof.
  destruct (load_teachers_key_error "teachers.json" teachers_file_broken
              [teacher_entry "teacher1" "secret"; {[ "username" := "teacher2" ]}] eq_refl)
    as (_ & _ & Hpw).
  apply (Hpw [teacher_entry "teacher1" "secret"] {[ "username" := "teacher2" ]} []).
  - reflexivity.
  - constructor; [| constructor]. split; by eexists.
  - by eexists.
  - reflexivity.
Defined.

(** ** The listing *)

(** X14: the listing changes nothing and shows the store as the calls left
    it: right after a successful signup the student is the last participant
    of the activity, right after an unregister from a list without
    duplicates the student is not listed, and every other activity is shown
    as before the call. *)
Theorem listing_shows_the_last_call activity_name email s a :
  activities s !! activity_name = Some a →
  (email ∉ participants a →
     ∃ body,
       get_activities (snd (signup_for_activity activity_name email s))
       = (Returned (ActivitiesBody body), snd (signup_for_activity activity_name email s))
       ∧ participants <$> body !! activity_name = Some (participants a ++ [email])
       ∧ (∀ other, other ≠ activity_name → body !! other = activities s !! other))
  ∧ (email ∈ participants a → NoDup (participants a) →
       ∃ body ps,
         get_activities
           (snd (unregister_from_activity activity_name email None None s))
         = (Returned (ActivitiesBody body),
            snd (unregister_from_activity activity_name email None None s))
         ∧ participants <$> body !! activity_name = Some ps
         ∧ (email ∉ ps)
         ∧ (∀ other, other ≠ activity_name → body !! other = activities s !! other)).
Proof.
  intros Ha. split.
  - intros Hin. rewrite (signup_fresh _ _ _ a Ha Hin). simpl.
    eexists. split; [reflexivity |]. simpl. split.
    + by rewrite lookup_insert_eq.
    + intros other Hne. by rewrite lookup_insert_ne.
  - intros Hin Hnd.
    destruct (unregister_member activity_name email s a Ha Hin) as (l1 & l2 & Hl & Hn & ->).
    simpl. eexists _, (l1 ++ l2). split; [reflexivity |]. simpl. split_and!.
    + by rewrite lookup_insert_eq.
    + rewrite Hl in Hnd. apply NoDup_app in Hnd as (_ & _ & [Hnot _]%NoDup_cons).
      intros [?|?]%elem_of_app; done.
    + intros other Hne. by rewrite lookup_insert_ne.
Qed.

Lemma listing_shows_the_last_call_witness :
  ∃ body,
    get_activities (snd (signup_for_activity "Chess Club" "b@x.com" store0))
    = (Returned (ActivitiesBody body), snd (signup_for_activity "Chess Club" "b@x.com" store0))
    ∧ participants <$> body !! "Chess Club" = Some (participants chess ++ ["b@x.com"])
    ∧ (∀ other, other ≠ "Chess Club" → body !! other = activities store0 !! other).
Proof.
  destruct (listing_shows_the_last_call "Chess Club" "b@x.com" store0 chess eq_refl)
    as [Hsignup _].
  apply Hsignup. apply list_contains_false. reflexivity.
Defined.
